(** * generate_embedding.py: the embedding command line script

    The script is four statements long:

<<
    model = SentenceTransformer('all-MiniLM-L6-v2')
    text = sys.argv[1]
    embedding = model.encode([text])[0]
    print(json.dumps(embedding.tolist()))
>>

    It is embedded as a program in a small exception-and-output monad.  The
    command line and the sentence-transformers library are the environment
    of a run; [json.dumps] and [print] are modelled with the behaviour of
    the Python standard library for the arguments the script passes. *)

From Stdlib Require Import String Ascii List Bool Arith ZArith Lia.
From Stdlib Require Import SpecFloat Decimal DecimalString DecimalPos DecimalFacts.
Import ListNotations.

Local Open Scope string_scope.

(** ** Python values the script handles *)

(** A Python [float] is an IEEE 754 binary64 value: zeros, finite numbers,
    infinities and NaN. *)
Definition pyfloat : Type := spec_float.

Definition is_finite (x : pyfloat) : bool :=
  match x with
  | S754_zero _ | S754_finite _ _ _ => true
  | S754_infinity _ | S754_nan => false
  end.

(** Exceptions that can end a run.  [IndexError] is raised by the script's
    own subscripts, [ValueError] by [json.dumps] when [allow_nan] is off,
    [LibraryError] stands for whatever the model library raises. *)
Inductive pyexc : Type :=
| IndexError
| ValueError
| LibraryError (what : string).

Inductive result (A : Type) : Type :=
| Ok (a : A)
| Raise (e : pyexc).
Arguments Ok {A} a.
Arguments Raise {A} e.

(** One row of the array returned by [encode]; [tolist] turns it into a
    list of Python floats. *)
Definition ndarray : Type := list pyfloat.

Definition tolist (a : ndarray) : list pyfloat := a.

(** ** The environment of a run *)

(** The loaded model is opaque: all the script uses is [encode]. *)
Record Model : Type := {
  encode : list string -> result (list ndarray)
}.

(** [sys_argv] is the argument vector (the script name at index 0),
    [SentenceTransformer] is the model constructor of the library. *)
Record Env : Type := {
  sys_argv : list string;
  SentenceTransformer : string -> result Model
}.

(** ** Observable state of the process *)

(** The stages of one execution, in the words of the specification. *)
Inductive Step : Type :=
| StepModelLoad
| StepArgRead
| StepEncode
| StepSerialize
| StepWrite.

Definition Step_eqb (a b : Step) : bool :=
  match a, b with
  | StepModelLoad, StepModelLoad
  | StepArgRead, StepArgRead
  | StepEncode, StepEncode
  | StepSerialize, StepSerialize
  | StepWrite, StepWrite => true
  | _, _ => false
  end.

Record World : Type := {
  w_stdout : string;
  w_trace : list Step
}.

Definition world0 : World := {| w_stdout := ""; w_trace := [] |}.

Definition log (s : Step) (w : World) : World :=
  {| w_stdout := w_stdout w; w_trace := w_trace w ++ [s] |}.

(** ** The monad: state for the world, exceptions for control *)

Definition Py (A : Type) : Type := World -> World * result A.

Definition ret {A} (a : A) : Py A := fun w => (w, Ok a).

Definition bind {A B} (m : Py A) (k : A -> Py B) : Py B :=
  fun w =>
    match m w with
    | (w', Ok a) => k a w'
    | (w', Raise e) => (w', Raise e)
    end.

Declare Scope py_scope.
Delimit Scope py_scope with py.
Notation "x <- m ;; k" := (bind m (fun x => k))
  (at level 100, m at next level, right associativity) : py_scope.

(** An external or library call: it is logged as stage [s], leaves
    standard output alone, and returns or raises. *)
Definition call {A} (s : Step) (r : result A) : Py A :=
  fun w => (log s w, r).

(** Python subscript [l[i]] for a non-negative literal [i]. *)
Definition getitem {A} (l : list A) (i : nat) : result A :=
  match nth_error l i with
  | Some a => Ok a
  | None => Raise IndexError
  end.

(** Lifting of a computation that does not touch the world. *)
Definition lift {A} (r : result A) : Py A := fun w => (w, r).

(** ** JSON text, as RFC 8259 defines it for arrays of numbers *)

Definition newline : ascii := ascii_of_nat 10.

Definition is_digit (c : ascii) : bool :=
  (48 <=? nat_of_ascii c)%nat && (nat_of_ascii c <=? 57)%nat.

Definition is_exp_mark (c : ascii) : bool :=
  Ascii.eqb c "e" || Ascii.eqb c "E".

Definition is_sign (c : ascii) : bool :=
  Ascii.eqb c "+" || Ascii.eqb c "-".

(** A number literal: an optional minus sign; an integer part that is
    either a single zero or starts with a non-zero digit; an optional
    fraction (a dot and at least one digit); an optional exponent (e or E,
    an optional sign, at least one digit).  As an automaton: *)
Inductive num_state : Type :=
| NStart | NMinus | NZero | NInt | NDot | NFrac | NExpMark | NExpSign | NExp.

Definition num_step (st : num_state) (c : ascii) : option num_state :=
  match st with
  | NStart =>
      if Ascii.eqb c "-" then Some NMinus
      else if Ascii.eqb c "0" then Some NZero
      else if is_digit c then Some NInt else None
  | NMinus =>
      if Ascii.eqb c "0" then Some NZero
      else if is_digit c then Some NInt else None
  | NZero =>
      if Ascii.eqb c "." then Some NDot
      else if is_exp_mark c then Some NExpMark else None
  | NInt =>
      if is_digit c then Some NInt
      else if Ascii.eqb c "." then Some NDot
      else if is_exp_mark c then Some NExpMark else None
  | NDot => if is_digit c then Some NFrac else None
  | NFrac =>
      if is_digit c then Some NFrac
      else if is_exp_mark c then Some NExpMark else None
  | NExpMark =>
      if is_sign c then Some NExpSign
      else if is_digit c then Some NExp else None
  | NExpSign => if is_digit c then Some NExp else None
  | NExp => if is_digit c then Some NExp else None
  end.

Definition num_accepting (st : num_state) : bool :=
  match st with
  | NZero | NInt | NFrac | NExp => true
  | _ => false
  end.

Fixpoint num_run (st : num_state) (s : string) : option num_state :=
  match s with
  | EmptyString => Some st
  | String c s' =>
      match num_step st c with
      | Some st' => num_run st' s'
      | None => None
      end
  end.

Definition json_number (s : string) : bool :=
  match num_run NStart s with
  | Some st => num_accepting st
  | None => false
  end.

Definition is_ws (c : ascii) : bool :=
  Ascii.eqb c " " || Ascii.eqb c "009" || Ascii.eqb c "010" || Ascii.eqb c "013".

Definition is_delim (c : ascii) : bool :=
  is_ws c || Ascii.eqb c "," || Ascii.eqb c "[" || Ascii.eqb c "]".

(** Scanner for an array text: an opening bracket, items separated by
    commas, a closing bracket, with whitespace allowed around every token.
    It returns the items, each a maximal run of characters that are neither
    whitespace nor structural. *)
Inductive arr_state : Type :=
| AStart
| AOpen
| AItem (acc : string) (done : list string)
| AGap (done : list string)
| AComma (done : list string)
| AEnd (done : list string).

Definition arr_step (st : arr_state) (c : ascii) : option arr_state :=
  match st with
  | AStart =>
      if is_ws c then Some AStart
      else if Ascii.eqb c "[" then Some AOpen else None
  | AOpen =>
      if is_ws c then Some AOpen
      else if Ascii.eqb c "]" then Some (AEnd [])
      else if is_delim c then None
      else Some (AItem (String c "") [])
  | AItem acc done =>
      if is_ws c then Some (AGap (done ++ [acc]))
      else if Ascii.eqb c "," then Some (AComma (done ++ [acc]))
      else if Ascii.eqb c "]" then Some (AEnd (done ++ [acc]))
      else if is_delim c then None
      else Some (AItem (acc ++ String c "") done)
  | AGap done =>
      if is_ws c then Some (AGap done)
      else if Ascii.eqb c "," then Some (AComma done)
      else if Ascii.eqb c "]" then Some (AEnd done)
      else None
  | AComma done =>
      if is_ws c then Some (AComma done)
      else if is_delim c then None
      else Some (AItem (String c "") done)
  | AEnd done => if is_ws c then Some (AEnd done) else None
  end.

Fixpoint arr_run (st : arr_state) (s : string) : option arr_state :=
  match s with
  | EmptyString => Some st
  | String c s' =>
      match arr_step st c with
      | Some st' => arr_run st' s'
      | None => None
      end
  end.

Definition array_items (s : string) : option (list string) :=
  match arr_run AStart s with
  | Some (AEnd done) => Some done
  | _ => None
  end.

(** [s] is valid JSON whose value is an array of numbers; the result is
    the list of number literals. *)
Definition json_number_array (s : string) : option (list string) :=
  match array_items s with
  | Some items => if forallb json_number items then Some items else None
  | None => None
  end.

(** [s] is valid JSON for an array of exactly [n] numbers. *)
Definition parses_to_numbers (n : nat) (s : string) : bool :=
  match json_number_array s with
  | Some items => Nat.eqb (length items) n
  | None => false
  end.

(** [s] is one line: its only newline is its last character. *)
Fixpoint single_line (s : string) : bool :=
  match s with
  | EmptyString => false
  | String c s' =>
      if Ascii.eqb c newline
      then match s' with EmptyString => true | _ => false end
      else single_line s'
  end.

Fixpoint no_newline (s : string) : bool :=
  match s with
  | EmptyString => true
  | String c s' => negb (Ascii.eqb c newline) && no_newline s'
  end.

(** An item of the scanner: not empty, no whitespace and no structural
    character. *)
Fixpoint no_delim (s : string) : bool :=
  match s with
  | EmptyString => true
  | String c s' => negb (is_delim c) && no_delim s'
  end.

Definition item_ok (t : string) : bool :=
  match t with
  | EmptyString => false
  | _ => no_delim t
  end.

(** ** A reference [float.__repr__]

    It prints the exact decimal value of a finite float, [m * 2^e], as an
    integer literal followed by [.0] or by a negative decimal exponent.
    Python prints the shortest literal that reads back as the same float;
    both are number literals, which is all the development relies on. *)

Definition digits_of_pos (p : positive) : string :=
  NilEmpty.string_of_uint (Pos.to_uint p).

Definition sign_text (s : bool) : string := if s then "-" else "".

Definition exact_repr (x : pyfloat) : string :=
  match x with
  | S754_zero s => sign_text s ++ "0.0"
  | S754_finite s m e =>
      sign_text s ++
      match e with
      | Z0 => digits_of_pos m ++ ".0"
      | Zpos k => digits_of_pos (m * 2 ^ k) ++ ".0"
      | Zneg k => digits_of_pos (m * 5 ^ k) ++ "e-" ++ digits_of_pos k
      end
  | S754_infinity s => sign_text s ++ "inf"
  | S754_nan => "nan"
  end.

(** ** json.dumps on a list of floats *)

(** Items are joined with the default item separator, a comma and a
    space. *)
Fixpoint join_items (ts : list string) : string :=
  match ts with
  | [] => ""
  | [t] => t
  | t :: ts' => t ++ ", " ++ join_items ts'
  end.

(** The same text seen from its first item: every further item is
    preceded by the separator. *)
Fixpoint more_items (ts : list string) : string :=
  match ts with
  | [] => ""
  | t :: ts' => ", " ++ t ++ more_items ts'
  end.

Definition render_array (ts : list string) : string :=
  "[" ++ join_items ts ++ "]".

Section Script.

(** [float.__repr__] on finite values belongs to the interpreter; the
    development is parametric in it. *)
Variable float_repr : pyfloat -> string.

(** [floatstr] of [json.encoder]: non-finite values are spelt out when
    [allow_nan] holds and rejected otherwise. *)
Definition floatstr (allow_nan : bool) (o : pyfloat) : result string :=
  match o with
  | S754_nan => if allow_nan then Ok "NaN" else Raise ValueError
  | S754_infinity false => if allow_nan then Ok "Infinity" else Raise ValueError
  | S754_infinity true => if allow_nan then Ok "-Infinity" else Raise ValueError
  | _ => Ok (float_repr o)
  end.

Fixpoint encode_items (allow_nan : bool) (l : list pyfloat) : result (list string) :=
  match l with
  | [] => Ok []
  | o :: l' =>
      match floatstr allow_nan o with
      | Raise e => Raise e
      | Ok t =>
          match encode_items allow_nan l' with
          | Raise e => Raise e
          | Ok ts => Ok (t :: ts)
          end
      end
  end.

Definition json_dumps (allow_nan : bool) (l : list pyfloat) : result string :=
  match encode_items allow_nan l with
  | Ok ts => Ok (render_array ts)
  | Raise e => Raise e
  end.

(** [print(s)] appends [s] and a newline to standard output. *)
Definition print (s : string) : Py unit :=
  fun w =>
    ({| w_stdout := w_stdout w ++ s ++ String newline "";
        w_trace := w_trace w ++ [StepWrite] |}, Ok tt).

(** ** The script *)

Definition model_name : string := "all-MiniLM-L6-v2".

Definition script (env : Env) : Py unit :=
  (model <- call StepModelLoad (SentenceTransformer env model_name) ;;
   text <- call StepArgRead (getitem (sys_argv env) 1) ;;
   rows <- call StepEncode (encode model [text]) ;;
   embedding <- lift (getitem rows 0) ;;
   line <- call StepSerialize (json_dumps true (tolist embedding)) ;;
   print line)%py.

(** What the caller of the process observes: the text on standard
    output, the exit status (0, or 1 after an uncaught exception), the
    exception if there was one, and the stages that were entered. *)
Record Outcome : Type := {
  out_stdout : string;
  out_status : Z;
  out_error : option pyexc;
  out_trace : list Step
}.

Definition run (env : Env) : Outcome :=
  match script env world0 with
  | (w, Ok _) =>
      {| out_stdout := w_stdout w; out_status := 0;
         out_error := None; out_trace := w_trace w |}
  | (w, Raise e) =>
      {| out_stdout := w_stdout w; out_status := 1;
         out_error := Some e; out_trace := w_trace w |}
  end.

(** The outcome of a run that ended in exception [e] after the stages
    [t], with nothing printed. *)
Definition failed (e : pyexc) (t : list Step) : Outcome :=
  {| out_stdout := ""; out_status := 1; out_error := Some e; out_trace := t |}.

(** The text [json.dumps] writes for one float with its defaults. *)
Definition literal (o : pyfloat) : string :=
  match floatstr true o with
  | Ok t => t
  | Raise _ => ""
  end.

(** [step_fails env st e]: in environment [env] the stages before [st]
    return and stage [st] raises [e]. *)
Inductive step_fails (env : Env) : Step -> pyexc -> Prop :=
| load_fails e :
    SentenceTransformer env model_name = Raise e ->
    step_fails env StepModelLoad e
| arg_fails model e :
    SentenceTransformer env model_name = Ok model ->
    getitem (sys_argv env) 1 = Raise e ->
    step_fails env StepArgRead e
| encode_fails model text e :
    SentenceTransformer env model_name = Ok model ->
    getitem (sys_argv env) 1 = Ok text ->
    encode model [text] = Raise e ->
    step_fails env StepEncode e
| row_fails model text rows e :
    SentenceTransformer env model_name = Ok model ->
    getitem (sys_argv env) 1 = Ok text ->
    encode model [text] = Ok rows ->
    getitem rows 0 = Raise e ->
    step_fails env StepEncode e
| dumps_fails model text rows embedding e :
    SentenceTransformer env model_name = Ok model ->
    getitem (sys_argv env) 1 = Ok text ->
    encode model [text] = Ok rows ->
    getitem rows 0 = Ok embedding ->
    json_dumps true (tolist embedding) = Raise e ->
    step_fails env StepSerialize e.

(** [all_succeed env line]: every stage before the write returns, and
    [line] is the serialized embedding. *)
Definition all_succeed (env : Env) (line : string) : Prop :=
  exists model text rows embedding,
    SentenceTransformer env model_name = Ok model /\
    getitem (sys_argv env) 1 = Ok text /\
    encode model [text] = Ok rows /\
    getitem rows 0 = Ok embedding /\
    json_dumps true (tolist embedding) = Ok line.

End Script.

(** ** Order of the stages *)

(** The order in which the script enters its stages. *)
Definition pipeline : list Step :=
  [StepModelLoad; StepArgRead; StepEncode; StepSerialize; StepWrite].

(** The stages a run has entered when stage [st] is the last one it
    enters: the script order up to and including [st]. *)
Definition stages_through (st : Step) : list Step :=
  match st with
  | StepModelLoad => [StepModelLoad]
  | StepArgRead => [StepModelLoad; StepArgRead]
  | StepEncode => [StepModelLoad; StepArgRead; StepEncode]
  | StepSerialize => [StepModelLoad; StepArgRead; StepEncode; StepSerialize]
  | StepWrite => pipeline
  end.

(** The order of the stages in the words of the specification: argument
    read, model load, inference, serialization, write. *)
Definition spec_pipeline : list Step :=
  [StepArgRead; StepModelLoad; StepEncode; StepSerialize; StepWrite].

(** [happens_before a b t]: in trace [t] some occurrence of [a] is followed
    by an occurrence of [b]. *)
Fixpoint happens_before (a b : Step) (t : list Step) : bool :=
  match t with
  | [] => false
  | x :: t' =>
      (Step_eqb x a && existsb (Step_eqb b) t') || happens_before a b t'
  end.

Fixpoint is_prefix (a b : list Step) : bool :=
  match a, b with
  | [], _ => true
  | x :: a', y :: b' => Step_eqb x y && is_prefix a' b'
  | _ :: _, [] => false
  end.

(** ** Sample environments *)

(** A model hub that knows one model under the name the script asks for. *)
Definition hub (m : Model) (name : string) : result Model :=
  if String.eqb name "all-MiniLM-L6-v2" then Ok m
  else Raise (LibraryError "unknown model").

(** A hub that cannot be reached. *)
Definition offline (name : string) : result Model :=
  Raise (LibraryError "model files unavailable").

(** A stand-in for the network: one row per text, 384 equal components
    whose value is [(1 + length text) / 256]. *)
Definition toy_row (t : string) : ndarray :=
  repeat (S754_finite false (Pos.of_succ_nat (String.length t)) (-8)) 384.

Definition toy_model : Model :=
  {| encode := fun texts => Ok (map toy_row texts) |}.

(** A model whose output overflowed: every component is NaN. *)
Definition nan_model : Model :=
  {| encode := fun texts => Ok (map (fun _ => repeat S754_nan 384) texts) |}.

(** A model that runs out of memory on every input. *)
Definition failing_model : Model :=
  {| encode := fun _ => Raise (LibraryError "out of memory") |}.

Definition script_name : string := "generate_embedding.py".

Definition env_hello : Env :=
  {| sys_argv := [script_name; "hello world"];
     SentenceTransformer := hub toy_model |}.

Definition env_hello_extra : Env :=
  {| sys_argv := ["embed"; "hello world"; "--verbose"; "ignored"];
     SentenceTransformer := hub toy_model |}.

Definition env_empty_text : Env :=
  {| sys_argv := [script_name; ""];
     SentenceTransformer := hub toy_model |}.

Definition env_empty_text_nan : Env :=
  {| sys_argv := [script_name; ""];
     SentenceTransformer := hub nan_model |}.

Definition env_no_arg : Env :=
  {| sys_argv := [script_name];
     SentenceTransformer := hub toy_model |}.

Definition env_no_arg_offline : Env :=
  {| sys_argv := [script_name];
     SentenceTransformer := offline |}.

Definition env_offline : Env :=
  {| sys_argv := [script_name; "hello world"];
     SentenceTransformer := offline |}.

Definition env_nan : Env :=
  {| sys_argv := [script_name; "hello world"];
     SentenceTransformer := hub nan_model |}.

Definition env_encode_fails : Env :=
  {| sys_argv := [script_name; "hello world"];
     SentenceTransformer := hub failing_model |}.

(** A model that returns no row at all. *)
Definition empty_result_model : Model :=
  {| encode := fun _ => Ok [] |}.

(** A model whose rows have no component. *)
Definition empty_row_model : Model :=
  {| encode := fun texts => Ok (map (fun _ => []) texts) |}.

(** A model that returns a second, unrelated row after the one of the
    text. *)
Definition two_row_model : Model :=
  {| encode := fun texts =>
                 Ok (map toy_row texts ++ [repeat S754_nan 3])%list |}.

(** A model with three components, one of them infinite. *)
Definition mixed_model : Model :=
  {| encode := fun texts =>
                 Ok (map (fun _ => [S754_finite false 1 (-1);
                                    S754_infinity true;
                                    S754_zero true]) texts) |}.

Definition env_empty_result : Env :=
  {| sys_argv := [script_name; "hello world"];
     SentenceTransformer := hub empty_result_model |}.

Definition env_empty_row : Env :=
  {| sys_argv := [script_name; "hello world"];
     SentenceTransformer := hub empty_row_model |}.

Definition env_two_rows : Env :=
  {| sys_argv := [script_name; "hello world"];
     SentenceTransformer := hub two_row_model |}.

Definition env_mixed : Env :=
  {| sys_argv := [script_name; "hello world"];
     SentenceTransformer := hub mixed_model |}.

Example exact_repr_half : exact_repr (S754_finite false 1 (-1)) = "5e-1".
Proof. reflexivity. Qed.

Example exact_repr_neg_six : exact_repr (S754_finite true 3 1) = "-6.0".
Proof. reflexivity. Qed.

Example number_samples :
  map json_number ["0.0"; "-0.0"; "5e-1"; "1e+16"; "1.5E-7"; "12"; "01"; "NaN"; "-"; "1."; ".5"; "Infinity"; ""]
  = [true; true; true; true; true; true; false; false; false; false; false; false; false].
Proof. reflexivity. Qed.

Example array_samples :
  map json_number_array
      ["[]"; "[1, 2.5]"; " [ 1 ,2e3 ] "; "[1, 2,]"; "[1 2]"; "[NaN]";
       "[1, 2"; "1, 2"; "[[1]]"; "[-Infinity, 0.0]"]
  = [Some []; Some ["1"; "2.5"]; Some ["1"; "2e3"]; None; None; None;
     None; None; None; None].
Proof. reflexivity. Qed.

Example single_line_samples :
  map single_line ["[1]" ++ String newline ""; "[1]";
                   "[1]" ++ String newline "x";
                   String newline ("[1]" ++ String newline "")]
  = [true; false; false; false].
Proof. reflexivity. Qed.

(** ** Proof automation *)

(** Closes the failure side of a case analysis on the stages: the outcome
    is [failed e t] and the stage that raised is found by [eauto]. *)
Ltac raises :=
  left; do 3 eexists; split; [|reflexivity]; solve [eauto using step_fails].

(** Settles the five statements on the exit status for a run that ended
    in an exception: every side is decided by evaluation. *)
Ltac status_of_failure :=
  cbn; repeat split; auto; intros; discriminate.

(** ** Strings *)

Lemma string_app_assoc (a b c : string) : (a ++ b) ++ c = a ++ (b ++ c).
Proof. induction a as [|x a IH]; simpl; [reflexivity | now rewrite IH]. Qed.

Lemma string_app_nil_r (a : string) : a ++ "" = a.
Proof. induction a as [|x a IH]; simpl; [reflexivity | now rewrite IH]. Qed.

(** ** Character classes *)

Lemma delim_false (c : ascii) :
  is_delim c = false ->
  is_ws c = false /\ Ascii.eqb c "," = false /\
  Ascii.eqb c "[" = false /\ Ascii.eqb c "]" = false.
Proof.
  unfold is_delim. intros H.
  apply orb_false_iff in H as [H H3].
  apply orb_false_iff in H as [H H2].
  apply orb_false_iff in H as [H0 H1]. auto.
Qed.

(** Every delimiter is one of seven characters, and the number automaton
    has no move on any of them. *)
Lemma delim_cases (c : ascii) :
  is_delim c = true ->
  c = " "%char \/ c = "009"%char \/ c = "010"%char \/ c = "013"%char \/
  c = ","%char \/ c = "["%char \/ c = "]"%char.
Proof.
  unfold is_delim, is_ws. intros H.
  repeat (apply orb_true_iff in H as [H|H]);
    apply Ascii.eqb_eq in H; subst; tauto.
Qed.

Lemma num_step_delim (st : num_state) (c : ascii) :
  is_delim c = true -> num_step st c = None.
Proof.
  intros H. apply delim_cases in H.
  repeat (destruct H as [H|H]); subst; destruct st; reflexivity.
Qed.

Lemma num_run_no_delim (s : string) :
  forall st st', num_run st s = Some st' -> no_delim s = true.
Proof.
  induction s as [|c s IH]; simpl; intros st st' H; [reflexivity|].
  destruct (is_delim c) eqn:D.
  - now rewrite (num_step_delim st c D) in H.
  - simpl. destruct (num_step st c) as [st1|]; [eauto | discriminate].
Qed.

(** A number literal is an item of the scanner. *)
Lemma json_number_item (t : string) : json_number t = true -> item_ok t = true.
Proof.
  unfold json_number, item_ok. intros H.
  destruct t as [|c t]; [discriminate H|].
  destruct (num_run NStart (String c t)) as [st|] eqn:R; [|discriminate].
  eapply num_run_no_delim; eauto.
Qed.

(** ** The scanner on the text that [render_array] produces *)

Lemma arr_run_item (t : string) :
  forall acc done rest,
    no_delim t = true ->
    arr_run (AItem acc done) (t ++ rest) = arr_run (AItem (acc ++ t) done) rest.
Proof.
  induction t as [|c t IH]; simpl; intros acc done rest H.
  - now rewrite string_app_nil_r.
  - apply andb_true_iff in H as [Hc Ht].
    apply negb_true_iff in Hc.
    destruct (delim_false c Hc) as (W & C1 & C2 & C3).
    rewrite W, C1, C3, Hc, IH by assumption.
    now rewrite string_app_assoc.
Qed.

Lemma join_items_cons (t : string) (ts : list string) :
  join_items (t :: ts) = t ++ more_items ts.
Proof.
  revert t. induction ts as [|u ts IH]; intros t.
  - simpl. now rewrite string_app_nil_r.
  - change (join_items (t :: u :: ts)) with (t ++ ", " ++ join_items (u :: ts)).
    rewrite IH. reflexivity.
Qed.

Lemma arr_run_first (t rest : string) (done : list string) (st : arr_state) :
  item_ok t = true ->
  (st = AOpen /\ done = [] \/ st = AComma done) ->
  arr_run st (t ++ rest) = arr_run (AItem t done) rest.
Proof.
  intros H Hst. destruct t as [|c t]; [discriminate H|].
  simpl in H. apply andb_true_iff in H as [Hc Ht].
  apply negb_true_iff in Hc.
  destruct (delim_false c Hc) as (W & C1 & C2 & C3).
  destruct Hst as [[-> ->]| ->]; simpl; rewrite W, ?C3, Hc;
    now rewrite arr_run_item by assumption.
Qed.

Lemma arr_run_more (ts : list string) :
  forall acc done,
    forallb item_ok ts = true ->
    arr_run (AItem acc done) (more_items ts ++ "]" ++ String newline "")
    = Some (AEnd (done ++ acc :: ts)).
Proof.
  induction ts as [|t ts IH]; intros acc done H.
  - reflexivity.
  - simpl in H. apply andb_true_iff in H as [Ht Hts].
    change (more_items (t :: ts)) with (", " ++ t ++ more_items ts).
    rewrite !string_app_assoc.
    change (arr_run (AItem acc done) (", " ++ t ++ more_items ts ++ "]" ++ String newline ""))
      with (arr_run (AComma (done ++ [acc])) (t ++ more_items ts ++ "]" ++ String newline "")).
    rewrite (arr_run_first t _ (done ++ [acc]) (AComma (done ++ [acc]))) by auto.
    rewrite IH by assumption.
    now rewrite <- app_assoc.
Qed.

Lemma array_items_render (ts : list string) :
  forallb item_ok ts = true ->
  array_items (render_array ts ++ String newline "") = Some ts.
Proof.
  intros H. unfold array_items, render_array.
  destruct ts as [|t ts].
  - reflexivity.
  - simpl in H. apply andb_true_iff in H as [Ht Hts].
    rewrite join_items_cons, !string_app_assoc.
    change (arr_run AStart ("[" ++ t ++ more_items ts ++ "]" ++ String newline ""))
      with (arr_run AOpen (t ++ more_items ts ++ "]" ++ String newline "")).
    rewrite (arr_run_first t _ [] AOpen) by auto.
    now rewrite arr_run_more.
Qed.

Lemma no_newline_app (a b : string) :
  no_newline (a ++ b) = no_newline a && no_newline b.
Proof.
  induction a as [|c a IH]; simpl; [reflexivity|].
  now rewrite IH, andb_assoc.
Qed.

Lemma no_delim_no_newline (t : string) : no_delim t = true -> no_newline t = true.
Proof.
  induction t as [|c t IH]; simpl; [reflexivity|].
  intros H. apply andb_true_iff in H as [Hc Ht].
  rewrite IH by assumption. rewrite andb_true_r.
  apply negb_true_iff in Hc. apply delim_false in Hc as (W & _).
  unfold is_ws in W.
  apply orb_false_iff in W as [W _]. apply orb_false_iff in W as [_ W].
  change newline with "010"%char. now rewrite W.
Qed.

Lemma item_ok_no_delim (t : string) : item_ok t = true -> no_delim t = true.
Proof. destruct t; [discriminate | trivial]. Qed.

Lemma no_newline_more_items (ts : list string) :
  forallb item_ok ts = true -> no_newline (more_items ts) = true.
Proof.
  induction ts as [|t ts IH]; simpl; [reflexivity|].
  intros H. apply andb_true_iff in H as [Ht Hts].
  rewrite no_newline_app, IH by assumption.
  now rewrite (no_delim_no_newline t (item_ok_no_delim t Ht)).
Qed.

Lemma single_line_app_newline (s : string) :
  no_newline s = true -> single_line (s ++ String newline "") = true.
Proof.
  induction s as [|c s IH]; simpl; [reflexivity|].
  intros H. apply andb_true_iff in H as [Hc Hs].
  apply negb_true_iff in Hc. rewrite Hc. auto.
Qed.

Lemma single_line_render (ts : list string) :
  forallb item_ok ts = true ->
  single_line (render_array ts ++ String newline "") = true.
Proof.
  intros H. apply single_line_app_newline. unfold render_array.
  destruct ts as [|t ts]; [reflexivity|].
  simpl in H. apply andb_true_iff in H as [Ht Hts].
  rewrite join_items_cons, string_app_assoc.
  change (no_newline (t ++ more_items ts ++ "]") = true).
  rewrite !no_newline_app, no_newline_more_items by assumption.
  now rewrite (no_delim_no_newline t (item_ok_no_delim t Ht)).
Qed.

(** ** The reference [repr] prints number literals *)

Lemma digits_stay (u : uint) (st : num_state) (rest : string) :
  st = NInt \/ st = NFrac \/ st = NExp ->
  num_run st (NilEmpty.string_of_uint u ++ rest) = num_run st rest.
Proof.
  intros Hst. induction u as [|u IH|u IH|u IH|u IH|u IH|u IH|u IH|u IH|u IH|u IH];
    [reflexivity | ..];
    destruct Hst as [->|[->| ->]]; simpl; apply IH.
Qed.

Lemma nzhead_shape (d : uint) :
  match nzhead d with D0 _ => False | _ => True end.
Proof. induction d; simpl; auto. Qed.

Lemma to_uint_normal (p : positive) : Pos.to_uint p = nzhead (Pos.to_uint p).
Proof.
  pose proof (Unsigned.to_of (Pos.to_uint p)) as E.
  rewrite Unsigned.of_to in E. simpl in E.
  pose proof (Unsigned.to_uint_nonzero p) as NZ.
  unfold unorm in E.
  destruct (nzhead (Pos.to_uint p)) eqn:N; try exact E.
  now elim NZ.
Qed.

(** The decimal digits of a positive number start with a non-zero digit:
    from the start of a literal, after a minus sign and after an exponent
    sign they are consumed as a whole. *)
Lemma digits_of_pos_run (p : positive) (rest : string) :
  num_run NStart (digits_of_pos p ++ rest) = num_run NInt rest /\
  num_run NMinus (digits_of_pos p ++ rest) = num_run NInt rest /\
  num_run NExpSign (digits_of_pos p ++ rest) = num_run NExp rest.
Proof.
  unfold digits_of_pos.
  pose proof (to_uint_normal p) as E.
  pose proof (nzhead_shape (Pos.to_uint p)) as S.
  pose proof (Unsigned.to_uint_nonnil p) as NN.
  rewrite <- E in S.
  destruct (Pos.to_uint p) as [|u|u|u|u|u|u|u|u|u|u];
    [now elim NN | now elim S | ..];
    simpl; repeat split; apply digits_stay; auto.
Qed.

Theorem exact_repr_number (x : pyfloat) :
  is_finite x = true -> json_number (exact_repr x) = true.
Proof.
  destruct x as [s|s| |s m e]; simpl; try discriminate; intros _.
  - destruct s; reflexivity.
  - unfold json_number.
    assert (T : forall p tail,
               num_run NStart (sign_text s ++ digits_of_pos p ++ tail)
               = num_run NInt tail).
    { intros p tail. destruct s; simpl.
      - apply digits_of_pos_run.
      - apply digits_of_pos_run. }
    destruct e as [|k|k]; rewrite ?string_app_assoc, T; try reflexivity.
    destruct (digits_of_pos_run k "") as (_ & _ & R).
    rewrite string_app_nil_r in R.
    change (num_run NInt (String "e" (String "-" (digits_of_pos k))))
      with (num_run NExpSign (digits_of_pos k)).
    rewrite R. reflexivity.
Qed.

(** ** Runs of the script *)

Section ScriptFacts.

Variable float_repr : pyfloat -> string.

Lemma encode_items_default (l : list pyfloat) :
  encode_items float_repr true l = Ok (map (literal float_repr) l).
Proof.
  induction l as [|o l IH]; simpl; [reflexivity|].
  rewrite IH. unfold literal.
  destruct o as [s|[]| |s m e]; reflexivity.
Qed.

(** With the default [allow_nan] the serializer never raises. *)
Lemma json_dumps_default (l : list pyfloat) :
  json_dumps float_repr true l = Ok (render_array (map (literal float_repr) l)).
Proof. unfold json_dumps. now rewrite encode_items_default. Qed.

(** With [allow_nan] off a non-finite component is a [ValueError]. *)
Lemma json_dumps_strict_rejects (l : list pyfloat) :
  forallb is_finite l = false ->
  json_dumps float_repr false l = Raise ValueError.
Proof.
  unfold json_dumps. induction l as [|o l IH]; simpl; [discriminate|].
  intros H. apply andb_false_iff in H.
  destruct o as [s|[]| |s m e]; simpl in *; try reflexivity;
    (destruct H as [H|H]; [discriminate H|]);
    specialize (IH H);
    destruct (encode_items float_repr false l); congruence.
Qed.

(** The script in direct style: one case per stage that can raise. *)
Lemma run_cases (env : Env) :
  run float_repr env =
  match SentenceTransformer env model_name with
  | Raise e => failed e [StepModelLoad]
  | Ok model =>
      match getitem (sys_argv env) 1 with
      | Raise e => failed e [StepModelLoad; StepArgRead]
      | Ok text =>
          match encode model [text] with
          | Raise e => failed e [StepModelLoad; StepArgRead; StepEncode]
          | Ok rows =>
              match getitem rows 0 with
              | Raise e => failed e [StepModelLoad; StepArgRead; StepEncode]
              | Ok embedding =>
                  match json_dumps float_repr true (tolist embedding) with
                  | Raise e =>
                      failed e [StepModelLoad; StepArgRead; StepEncode; StepSerialize]
                  | Ok line =>
                      {| out_stdout := line ++ String newline "";
                         out_status := 0;
                         out_error := None;
                         out_trace := pipeline |}
                  end
              end
          end
      end
  end.
Proof.
  unfold run, script, bind, call, lift, print, failed; simpl.
  destruct (SentenceTransformer env model_name) as [model|e]; [|reflexivity].
  destruct (getitem (sys_argv env) 1) as [text|e]; [|reflexivity].
  destruct (encode model [text]) as [rows|e]; [|reflexivity].
  destruct (getitem rows 0) as [embedding|e]; [|reflexivity].
  destruct (json_dumps float_repr true (tolist embedding)) as [line|e];
    reflexivity.
Qed.

Lemma getitem_some {A} (l : list A) (i : nat) (a : A) :
  nth_error l i = Some a -> getitem l i = Ok a.
Proof. unfold getitem. now intros ->. Qed.

Lemma getitem_none {A} (l : list A) (i : nat) :
  nth_error l i = None -> getitem l i = Raise IndexError.
Proof. unfold getitem. now intros ->. Qed.

(** A run in which model load, argument read and encoding return. *)
Lemma run_prints (env : Env) (model : Model) (text : string)
      (embedding : ndarray) (rest : list ndarray) :
  SentenceTransformer env model_name = Ok model ->
  nth_error (sys_argv env) 1 = Some text ->
  encode model [text] = Ok (embedding :: rest) ->
  run float_repr env =
  {| out_stdout :=
       render_array (map (literal float_repr) embedding) ++ String newline "";
     out_status := 0;
     out_error := None;
     out_trace := pipeline |}.
Proof.
  intros L A E. rewrite run_cases, L, (getitem_some _ _ _ A), E.
  simpl. now rewrite json_dumps_default.
Qed.

(** *** Failure and success are exhaustive and exclusive *)

Lemma run_outcome (env : Env) :
  (exists st e t, step_fails float_repr env st e /\ run float_repr env = failed e t) \/
  (exists line, all_succeed float_repr env line /\
                run float_repr env =
                {| out_stdout := line ++ String newline "";
                   out_status := 0; out_error := None; out_trace := pipeline |}).
Proof.
  rewrite run_cases. unfold all_succeed.
  destruct (SentenceTransformer env model_name) as [model|e] eqn:L;
    [|raises].
  destruct (getitem (sys_argv env) 1) as [text|e] eqn:A;
    [|raises].
  destruct (encode model [text]) as [rows|e] eqn:E;
    [|raises].
  destruct (getitem rows 0) as [embedding|e] eqn:R;
    [|raises].
  destruct (json_dumps float_repr true (tolist embedding)) as [line|e] eqn:J;
    [|raises].
  right. exists line. split; [|reflexivity].
  exists model, text, rows, embedding. auto.
Qed.

Lemma step_fails_run (env : Env) (st : Step) (e : pyexc) :
  step_fails float_repr env st e -> exists t, run float_repr env = failed e t.
Proof.
  intros H. rewrite run_cases.
  destruct H as [e L|model e L A|model text e L A E|model text rows e L A E R
                 |model text rows embedding e L A E R J];
    rewrite L; try rewrite A; try rewrite E; try rewrite R; try rewrite J;
    eauto.
Qed.

Lemma append_newline_not_empty (line : string) : line ++ String newline "" <> "".
Proof. destruct line; discriminate. Qed.

(** *** The stages a run goes through *)

Lemma run_trace (env : Env) :
  exists n, 1 <= n <= 5 /\ out_trace (run float_repr env) = firstn n pipeline /\
            (out_error (run float_repr env) = None -> n = 5).
Proof.
  rewrite run_cases.
  destruct (SentenceTransformer env model_name) as [model|e];
    [|exists 1; simpl; repeat split; try lia; discriminate].
  destruct (getitem (sys_argv env) 1) as [text|e];
    [|exists 2; simpl; repeat split; try lia; discriminate].
  destruct (encode model [text]) as [rows|e];
    [|exists 3; simpl; repeat split; try lia; discriminate].
  destruct (getitem rows 0) as [embedding|e];
    [|exists 3; simpl; repeat split; try lia; discriminate].
  destruct (json_dumps float_repr true (tolist embedding)) as [line|e];
    [|exists 4; simpl; repeat split; try lia; discriminate].
  exists 5; simpl; repeat split; lia.
Qed.

(** *** What the serializer writes *)

Hypothesis float_repr_number :
  forall x, is_finite x = true -> json_number (float_repr x) = true.

Lemma literal_number (o : pyfloat) :
  json_number (literal float_repr o) = is_finite o.
Proof.
  destruct o as [s|[]| |s m e]; try reflexivity;
    unfold literal; simpl; now apply float_repr_number.
Qed.

Lemma literal_item_ok (o : pyfloat) : item_ok (literal float_repr o) = true.
Proof.
  destruct (is_finite o) eqn:F.
  - apply json_number_item. now rewrite literal_number.
  - destruct o as [s|[]| |s m e]; try discriminate F; reflexivity.
Qed.

Lemma literals_item_ok (l : list pyfloat) :
  forallb item_ok (map (literal float_repr) l) = true.
Proof.
  induction l as [|o l IH]; simpl; [reflexivity|].
  now rewrite literal_item_ok, IH.
Qed.

Lemma literals_number (l : list pyfloat) :
  forallb json_number (map (literal float_repr) l) = forallb is_finite l.
Proof.
  induction l as [|o l IH]; simpl; [reflexivity|].
  now rewrite literal_number, IH.
Qed.

(** The printed line read back: it is an array text with one item per
    component, and it is valid JSON exactly when every component is
    finite. *)
Lemma printed_line_items (l : list pyfloat) :
  array_items (render_array (map (literal float_repr) l) ++ String newline "")
  = Some (map (literal float_repr) l).
Proof. apply array_items_render, literals_item_ok. Qed.

Lemma printed_line_json (l : list pyfloat) :
  json_number_array (render_array (map (literal float_repr) l) ++ String newline "")
  = if forallb is_finite l then Some (map (literal float_repr) l) else None.
Proof.
  unfold json_number_array. now rewrite printed_line_items, literals_number.
Qed.

(** *** Properties of the script *)

(** C1 (amended): for a non-empty text, when the model loads and [encode]
    returns a first row of 384 components that are all finite, standard
    output is a single line of valid JSON that parses to an array of
    exactly 384 numbers. *)
Theorem finite_embedding_prints_json_array
        (env : Env) (model : Model) (text : string)
        (embedding : ndarray) (rest : list ndarray) :
  text <> "" ->
  SentenceTransformer env "all-MiniLM-L6-v2" = Ok model ->
  nth_error (sys_argv env) 1 = Some text ->
  encode model [text] = Ok (embedding :: rest) ->
  length embedding = 384 ->
  forallb is_finite embedding = true ->
  single_line (out_stdout (run float_repr env)) = true /\
  parses_to_numbers 384 (out_stdout (run float_repr env)) = true.
Proof.
  intros _ L A E Hlen Hfin.
  rewrite (run_prints env model text embedding rest L A E). cbn [out_stdout]. split.
  - apply single_line_render, literals_item_ok.
  - unfold parses_to_numbers.
    rewrite printed_line_json, Hfin, length_map, Hlen. reflexivity.
Qed.

(** C2: when there is a first positional argument and both the load of
    the model named all-MiniLM-L6-v2 and the encoding of the one-element
    list holding the argument return, standard output is exactly the
    [json.dumps] text of the first row followed by a newline. *)
Theorem stdout_is_serialized_first_row
        (env : Env) (model : Model) (text : string)
        (embedding : ndarray) (rest : list ndarray) :
  SentenceTransformer env "all-MiniLM-L6-v2" = Ok model ->
  nth_error (sys_argv env) 1 = Some text ->
  encode model [text] = Ok (embedding :: rest) ->
  exists line,
    json_dumps float_repr true (tolist embedding) = Ok line /\
    out_stdout (run float_repr env) = line ++ String newline "".
Proof.
  intros L A E. eexists. split; [apply json_dumps_default|].
  now rewrite (run_prints env model text embedding rest L A E).
Qed.

(** C3 (amended): every execution enters its stages in the order model
    load, argument read, inference, serialization, write, and stops at the
    first stage that raises: when a stage raises, the stages entered are
    exactly those of the script order up to and including that stage, and
    the write is not among them; all five stages are entered exactly when
    nothing raises; the model load is always the first stage and the
    argument is never read before it. *)
Theorem stages_follow_script_order (env : Env) :
  (forall st e,
      step_fails float_repr env st e ->
      out_error (run float_repr env) = Some e /\
      out_trace (run float_repr env) = stages_through st) /\
  (forall e,
      out_error (run float_repr env) = Some e ->
      exists st,
        step_fails float_repr env st e /\ st <> StepWrite /\
        out_trace (run float_repr env) = stages_through st) /\
  (out_error (run float_repr env) = None <->
   out_trace (run float_repr env) = pipeline) /\
  (exists n, 1 <= n <= 5 /\
             out_trace (run float_repr env) = firstn n pipeline) /\
  hd_error (out_trace (run float_repr env)) = Some StepModelLoad /\
  happens_before StepArgRead StepModelLoad (out_trace (run float_repr env))
  = false.
Proof.
  assert (FT : forall st e,
             step_fails float_repr env st e ->
             run float_repr env = failed e (stages_through st) /\
             st <> StepWrite).
  { intros st e F. rewrite run_cases.
    destruct F as [e L|model e L A|model text e L A E|model text rows e L A E R
                   |model text rows embedding e L A E R J];
      rewrite L; try rewrite A; try rewrite E; try rewrite R; try rewrite J;
      (split; [reflexivity | discriminate]). }
  destruct (run_trace env) as (n & Hn & T & Hok).
  split.
  { intros st e F. destruct (FT st e F) as [R _]. rewrite R. split; reflexivity. }
  split.
  { intros e H.
    destruct (run_outcome env) as [(st & e' & t & F & _)|(line & _ & R)].
    - destruct (FT st e' F) as [R NW]. rewrite R in H. cbn in H.
      injection H as <-. exists st. rewrite R. auto.
    - rewrite R in H. discriminate H. }
  split.
  { split.
    - intros H. rewrite T, (Hok H). reflexivity.
    - intros H.
      destruct (run_outcome env) as [(st & e' & t & F & _)|(line & _ & R)];
        [|rewrite R; reflexivity].
      destruct (FT st e' F) as [R NW]. rewrite R in H. cbn in H.
      destruct st; try discriminate H. now elim NW. }
  split; [exists n; auto|].
  rewrite T.
  assert (C : n = 1 \/ n = 2 \/ n = 3 \/ n = 4 \/ n = 5) by lia.
  destruct C as [->|[->|[->|[->| ->]]]]; split; reflexivity.
Qed.

(** C4 (amended): with no positional argument the run ends in an
    uncaught exception, exit status 1 and empty standard output; the
    exception is the [IndexError] of the subscript when the model load
    returned, and the exception of the model load when that raised. *)
Theorem missing_argument_fails (env : Env) :
  nth_error (sys_argv env) 1 = None ->
  out_status (run float_repr env) = 1%Z /\
  out_stdout (run float_repr env) = "" /\
  out_error (run float_repr env) =
  Some (match SentenceTransformer env model_name with
        | Ok _ => IndexError
        | Raise e => e
        end).
Proof.
  intros A. rewrite run_cases, (getitem_none _ _ A).
  destruct (SentenceTransformer env model_name); simpl; auto.
Qed.

(** C5: whichever stage raises (model load, argument read, encoding,
    subscript of the result, serialization), the exception ends the run
    with exit status 1 and empty standard output; every failed run is of
    that kind; and when standard output is not empty every stage
    returned, the status is 0 and the output is the whole line. *)
Theorem failure_leaves_stdout_empty (env : Env) :
  (forall st e,
      step_fails float_repr env st e ->
      out_error (run float_repr env) = Some e /\
      out_status (run float_repr env) = 1%Z /\
      out_stdout (run float_repr env) = "") /\
  (forall e,
      out_error (run float_repr env) = Some e ->
      exists st, step_fails float_repr env st e) /\
  (out_stdout (run float_repr env) <> "" ->
   out_error (run float_repr env) = None /\
   out_status (run float_repr env) = 0%Z /\
   exists line,
     all_succeed float_repr env line /\
     out_stdout (run float_repr env) = line ++ String newline "").
Proof.
  split; [|split].
  - intros st e F. destruct (step_fails_run env st e F) as (t & ->).
    simpl. auto.
  - intros e H.
    destruct (run_outcome env) as [(st & e' & t & F & R)|(line & _ & R)];
      rewrite R in H; simpl in H; [|discriminate].
    injection H as <-. eauto.
  - intros H.
    destruct (run_outcome env) as [(st & e' & t & F & R)|(line & S & R)];
      rewrite R in *; simpl in *; [now elim H|eauto].
Qed.

(** C6 (amended): when the first row holds a non-finite component the
    serialization does not fail: [json.dumps] runs with its default
    [allow_nan] and writes NaN, Infinity or -Infinity; the run ends with
    status 0 and the printed line is not valid JSON. *)
Theorem non_finite_embedding_is_serialized
        (env : Env) (model : Model) (text : string)
        (embedding : ndarray) (rest : list ndarray) :
  SentenceTransformer env "all-MiniLM-L6-v2" = Ok model ->
  nth_error (sys_argv env) 1 = Some text ->
  encode model [text] = Ok (embedding :: rest) ->
  forallb is_finite embedding = false ->
  out_error (run float_repr env) = None /\
  out_status (run float_repr env) = 0%Z /\
  out_stdout (run float_repr env)
  = render_array (map (literal float_repr) embedding) ++ String newline "" /\
  json_number_array (out_stdout (run float_repr env)) = None.
Proof.
  intros L A E Hnf.
  rewrite (run_prints env model text embedding rest L A E).
  cbn [out_stdout out_status out_error]. repeat split.
  now rewrite printed_line_json, Hnf.
Qed.

(** C7: two runs given the same text, whose models return the same
    result for it, have the same outcome; in particular they print the
    same vector. *)
Theorem same_text_same_model_same_output
        (env1 env2 : Env) (text : string) (m1 m2 : Model) :
  nth_error (sys_argv env1) 1 = Some text ->
  nth_error (sys_argv env2) 1 = Some text ->
  SentenceTransformer env1 "all-MiniLM-L6-v2" = Ok m1 ->
  SentenceTransformer env2 "all-MiniLM-L6-v2" = Ok m2 ->
  encode m1 [text] = encode m2 [text] ->
  run float_repr env1 = run float_repr env2.
Proof.
  intros A1 A2 L1 L2 E. rewrite !run_cases. unfold model_name.
  rewrite L1, L2, (getitem_some _ _ _ A1), (getitem_some _ _ _ A2), E.
  reflexivity.
Qed.

(** C8: the script reads [sys.argv] at index 1 only: two invocations
    with the same model library whose argument vectors agree at index 1
    have the same outcome, whatever the other arguments are. *)
Theorem extra_arguments_are_ignored
        (load : string -> result Model) (argv1 argv2 : list string) :
  nth_error argv1 1 = nth_error argv2 1 ->
  run float_repr {| sys_argv := argv1; SentenceTransformer := load |}
  = run float_repr {| sys_argv := argv2; SentenceTransformer := load |}.
Proof.
  intros H. rewrite !run_cases. unfold getitem.
  cbn [sys_argv SentenceTransformer]. now rewrite H.
Qed.

(** C9 (amended): for the empty text, when the model accepts it and
    returns a first row of 384 components, the run does not raise, exits
    with status 0 and prints one line holding an array text of 384 items;
    that line is valid JSON for an array of exactly 384 numbers exactly
    when every component is finite. *)
Theorem empty_text_prints_vector
        (env : Env) (model : Model)
        (embedding : ndarray) (rest : list ndarray) :
  SentenceTransformer env "all-MiniLM-L6-v2" = Ok model ->
  nth_error (sys_argv env) 1 = Some "" ->
  encode model [""] = Ok (embedding :: rest) ->
  length embedding = 384 ->
  out_error (run float_repr env) = None /\
  out_status (run float_repr env) = 0%Z /\
  single_line (out_stdout (run float_repr env)) = true /\
  (exists items,
      array_items (out_stdout (run float_repr env)) = Some items /\
      length items = 384) /\
  parses_to_numbers 384 (out_stdout (run float_repr env))
  = forallb is_finite embedding.
Proof.
  intros L A E Hlen.
  rewrite (run_prints env model "" embedding rest L A E).
  cbn [out_stdout out_status out_error].
  split; [reflexivity|]. split; [reflexivity|]. split; [|split].
  - apply single_line_render, literals_item_ok.
  - eexists. split; [apply printed_line_items|].
    now rewrite length_map.
  - unfold parses_to_numbers. rewrite printed_line_json.
    destruct (forallb is_finite embedding); [|reflexivity].
    rewrite length_map, Hlen. reflexivity.
Qed.

(** C10: a failed run is either an exception of the library (model load
    or [encode]) or the [IndexError] of one of the script's two
    subscripts, out of bounds; and when an argument is supplied, the
    model loads and [encode] on the one-element list returns a
    one-element list, both subscripts are in bounds and the run raises
    nothing, for every text and every row of any length. *)
Theorem subscripts_in_bounds (env : Env) :
  (forall e,
      out_error (run float_repr env) = Some e ->
      SentenceTransformer env model_name = Raise e \/
      (exists model text,
          SentenceTransformer env model_name = Ok model /\
          nth_error (sys_argv env) 1 = Some text /\
          encode model [text] = Raise e) \/
      (e = IndexError /\
       (nth_error (sys_argv env) 1 = None \/
        exists model text,
          SentenceTransformer env model_name = Ok model /\
          nth_error (sys_argv env) 1 = Some text /\
          encode model [text] = Ok []))) /\
  (forall model text embedding,
      SentenceTransformer env model_name = Ok model ->
      nth_error (sys_argv env) 1 = Some text ->
      encode model [text] = Ok [embedding] ->
      getitem (sys_argv env) 1 = Ok text /\
      getitem [embedding] 0 = Ok embedding /\
      out_error (run float_repr env) = None /\
      out_status (run float_repr env) = 0%Z /\
      out_trace (run float_repr env) = pipeline).
Proof.
  split.
  - intros e. rewrite run_cases. unfold getitem.
    destruct (SentenceTransformer env model_name) as [model|e0];
      [|simpl; intros [= ->]; auto].
    destruct (nth_error (sys_argv env) 1) as [text|];
      [|simpl; intros [= <-]; auto].
    destruct (encode model [text]) as [[|row rows]|e0] eqn:E.
    + simpl. intros [= <-]. right; right. split; [reflexivity|].
      right. exists model, text. auto.
    + simpl. rewrite json_dumps_default. discriminate.
    + simpl. intros [= ->]. right; left. exists model, text. auto.
  - intros model text embedding L A E.
    rewrite (run_prints env model text embedding [] L A E).
    rewrite (getitem_some _ _ _ A). repeat split.
Qed.

End ScriptFacts.

(** ** The properties at sample environments *)

Example dumps_sample :
  json_dumps exact_repr true
    [S754_finite false 1 (-1); S754_nan; S754_infinity true;
     S754_zero false; S754_finite true 3 1; S754_infinity false]
  = Ok "[5e-1, NaN, -Infinity, 0.0, -6.0, Infinity]".
Proof. reflexivity. Qed.

Example hello_world_line_starts :
  substring 0 25 (out_stdout (run exact_repr env_hello))
  = "[4687500e-8, 4687500e-8, ".
Proof. vm_compute. reflexivity. Qed.

Lemma finite_embedding_prints_json_array_witness :
  forallb is_finite (toy_row "hello world") = true /\
  single_line (out_stdout (run exact_repr env_hello)) = true /\
  parses_to_numbers 384 (out_stdout (run exact_repr env_hello)) = true.
Proof.
  split; [vm_compute; reflexivity|].
  apply (finite_embedding_prints_json_array exact_repr exact_repr_number
           env_hello toy_model "hello world" (toy_row "hello world") []).
  - discriminate.
  - reflexivity.
  - reflexivity.
  - reflexivity.
  - vm_compute; reflexivity.
  - vm_compute; reflexivity.
Defined.

(** C1 as stated, without the finiteness of the components, fails: a row
    of 384 NaN is printed as 384 NaN tokens, which is not JSON. *)
Lemma nan_embedding_is_not_json :
  ~ (forall float_repr : pyfloat -> string,
        (forall x, is_finite x = true -> json_number (float_repr x) = true) ->
        forall env model text embedding rest,
          text <> "" ->
          SentenceTransformer env "all-MiniLM-L6-v2" = Ok model ->
          nth_error (sys_argv env) 1 = Some text ->
          encode model [text] = Ok (embedding :: rest) ->
          length embedding = 384 ->
          single_line (out_stdout (run float_repr env)) = true /\
          parses_to_numbers 384 (out_stdout (run float_repr env)) = true).
Proof.
  intros H.
  destruct (H exact_repr exact_repr_number env_nan nan_model "hello world"
              (repeat S754_nan 384) []) as [_ P].
  - discriminate.
  - reflexivity.
  - reflexivity.
  - reflexivity.
  - vm_compute; reflexivity.
  - vm_compute in P. discriminate P.
Qed.

Lemma stdout_is_serialized_first_row_witness :
  exists line,
    json_dumps exact_repr true (tolist (toy_row "hello world")) = Ok line /\
    out_stdout (run exact_repr env_hello) = line ++ String newline "".
Proof.
  apply (stdout_is_serialized_first_row exact_repr env_hello toy_model
           "hello world" (toy_row "hello world") []); reflexivity.
Defined.

Lemma stages_follow_script_order_witness :
  step_fails exact_repr env_encode_fails StepEncode
             (LibraryError "out of memory") /\
  out_error (run exact_repr env_encode_fails)
  = Some (LibraryError "out of memory") /\
  out_trace (run exact_repr env_encode_fails)
  = [StepModelLoad; StepArgRead; StepEncode].
Proof.
  assert (F : step_fails exact_repr env_encode_fails StepEncode
                         (LibraryError "out of memory"))
    by (eapply encode_fails; reflexivity).
  split; [exact F|].
  exact (proj1 (stages_follow_script_order exact_repr env_encode_fails) _ _ F).
Defined.

(** C3 as stated fails: in a complete run the model is loaded before the
    argument is read, and without an argument the model is loaded all the
    same. *)
Lemma model_load_precedes_argument_read :
  out_trace (run exact_repr env_hello)
  = [StepModelLoad; StepArgRead; StepEncode; StepSerialize; StepWrite] /\
  happens_before StepModelLoad StepArgRead (out_trace (run exact_repr env_hello))
  = true /\
  is_prefix (out_trace (run exact_repr env_hello)) spec_pipeline = false /\
  out_trace (run exact_repr env_no_arg) = [StepModelLoad; StepArgRead].
Proof. repeat split; vm_compute; reflexivity. Qed.

Lemma missing_argument_fails_witness :
  out_status (run exact_repr env_no_arg) = 1%Z /\
  out_stdout (run exact_repr env_no_arg) = "" /\
  out_error (run exact_repr env_no_arg) = Some IndexError.
Proof.
  apply (missing_argument_fails exact_repr env_no_arg). reflexivity.
Defined.

(** C4 as stated fails: with no argument and a model that cannot be
    loaded, the exception of the run is the one of the model load, not an
    [IndexError]. *)
Lemma missing_argument_after_failed_load :
  nth_error (sys_argv env_no_arg_offline) 1 = None /\
  out_error (run exact_repr env_no_arg_offline)
  = Some (LibraryError "model files unavailable") /\
  out_error (run exact_repr env_no_arg_offline) <> Some IndexError.
Proof.
  split; [reflexivity|].
  split; [vm_compute; reflexivity | vm_compute; discriminate].
Qed.

Lemma failure_leaves_stdout_empty_witness :
  step_fails exact_repr env_encode_fails StepEncode (LibraryError "out of memory") /\
  out_error (run exact_repr env_encode_fails)
  = Some (LibraryError "out of memory") /\
  out_status (run exact_repr env_encode_fails) = 1%Z /\
  out_stdout (run exact_repr env_encode_fails) = "".
Proof.
  assert (F : step_fails exact_repr env_encode_fails StepEncode
                         (LibraryError "out of memory"))
    by (eapply encode_fails; reflexivity).
  split; [exact F|].
  exact (proj1 (failure_leaves_stdout_empty exact_repr env_encode_fails) _ _ F).
Defined.

Lemma non_finite_embedding_is_serialized_witness :
  out_error (run exact_repr env_nan) = None /\
  out_status (run exact_repr env_nan) = 0%Z /\
  out_stdout (run exact_repr env_nan)
  = render_array (map (literal exact_repr) (repeat S754_nan 384))
    ++ String newline "" /\
  json_number_array (out_stdout (run exact_repr env_nan)) = None.
Proof.
  apply (non_finite_embedding_is_serialized exact_repr exact_repr_number
           env_nan nan_model "hello world" (repeat S754_nan 384) []);
    reflexivity.
Defined.

(** C6 as stated fails: a row of NaN is serialized and printed, and the
    run ends with status 0. *)
Lemma non_finite_embedding_is_printed :
  forallb is_finite (repeat S754_nan 384) = false /\
  out_error (run exact_repr env_nan) = None /\
  out_status (run exact_repr env_nan) = 0%Z /\
  out_stdout (run exact_repr env_nan)
  = render_array (repeat "NaN" 384) ++ String newline "".
Proof. repeat split; vm_compute; reflexivity. Qed.

Lemma same_text_same_model_same_output_witness :
  run exact_repr env_hello = run exact_repr env_hello_extra.
Proof.
  apply (same_text_same_model_same_output exact_repr env_hello env_hello_extra
           "hello world" toy_model toy_model); reflexivity.
Defined.

Lemma extra_arguments_are_ignored_witness :
  run exact_repr
      {| sys_argv := [script_name; "hello world"];
         SentenceTransformer := hub toy_model |}
  = run exact_repr
        {| sys_argv := ["embed"; "hello world"; "--verbose"; "ignored"];
           SentenceTransformer := hub toy_model |}.
Proof.
  apply (extra_arguments_are_ignored exact_repr (hub toy_model)). reflexivity.
Defined.

Lemma empty_text_prints_vector_witness :
  out_error (run exact_repr env_empty_text) = None /\
  out_status (run exact_repr env_empty_text) = 0%Z /\
  single_line (out_stdout (run exact_repr env_empty_text)) = true /\
  (exists items,
      array_items (out_stdout (run exact_repr env_empty_text)) = Some items /\
      length items = 384) /\
  parses_to_numbers 384 (out_stdout (run exact_repr env_empty_text))
  = forallb is_finite (toy_row "").
Proof.
  apply (empty_text_prints_vector exact_repr exact_repr_number
           env_empty_text toy_model (toy_row "") []);
    reflexivity.
Defined.

(** C9 as stated fails: for the empty text and a model that accepts it
    and returns a row of 384 NaN, the run does not raise, yet what it
    prints is 384 NaN tokens, which is not a JSON array. *)
Lemma empty_text_nan_embedding_is_not_json :
  ~ (forall float_repr : pyfloat -> string,
        (forall x, is_finite x = true -> json_number (float_repr x) = true) ->
        forall env model embedding rest,
          SentenceTransformer env "all-MiniLM-L6-v2" = Ok model ->
          nth_error (sys_argv env) 1 = Some "" ->
          encode model [""] = Ok (embedding :: rest) ->
          length embedding = 384 ->
          out_error (run float_repr env) = None /\
          parses_to_numbers 384 (out_stdout (run float_repr env)) = true).
Proof.
  intros H.
  destruct (H exact_repr exact_repr_number env_empty_text_nan nan_model
              (repeat S754_nan 384) []) as [_ P].
  - reflexivity.
  - reflexivity.
  - reflexivity.
  - vm_compute; reflexivity.
  - vm_compute in P. discriminate P.
Qed.

Lemma subscripts_in_bounds_witness :
  getitem (sys_argv env_hello) 1 = Ok "hello world" /\
  getitem [toy_row "hello world"] 0 = Ok (toy_row "hello world") /\
  out_error (run exact_repr env_hello) = None /\
  out_status (run exact_repr env_hello) = 0%Z /\
  out_trace (run exact_repr env_hello) = pipeline.
Proof.
  apply (proj2 (subscripts_in_bounds exact_repr env_hello) toy_model
               "hello world" (toy_row "hello world")); reflexivity.
Defined.

(** ** Further properties of the script *)

Section ScriptMore.

Variable float_repr : pyfloat -> string.

(** No row: the subscript [[0]] of line 7 raises. *)
Lemma run_no_row (env : Env) (model : Model) (text : string) :
  SentenceTransformer env model_name = Ok model ->
  nth_error (sys_argv env) 1 = Some text ->
  encode model [text] = Ok [] ->
  run float_repr env
  = failed IndexError [StepModelLoad; StepArgRead; StepEncode].
Proof.
  intros L A E.
  now rewrite run_cases, L, (getitem_some _ _ _ A), E.
Qed.

Lemma literal_of_finite (l : list pyfloat) :
  forallb is_finite l = true -> map (literal float_repr) l = map float_repr l.
Proof.
  induction l as [|o l IH]; simpl; [reflexivity|].
  intros H. apply andb_true_iff in H as [Ho Hl].
  rewrite (IH Hl). f_equal.
  destruct o as [s|s| |s m e]; try discriminate Ho; reflexivity.
Qed.

Hypothesis float_repr_number :
  forall x, is_finite x = true -> json_number (float_repr x) = true.

(** The items of the printed line of a run that reaches the write. *)
Lemma stdout_items (env : Env) (model : Model) (text : string)
      (embedding : ndarray) (rest : list ndarray) :
  SentenceTransformer env model_name = Ok model ->
  nth_error (sys_argv env) 1 = Some text ->
  encode model [text] = Ok (embedding :: rest) ->
  array_items (out_stdout (run float_repr env))
  = Some (map (literal float_repr) embedding).
Proof.
  intros L A E. rewrite (run_prints float_repr env model text embedding rest L A E).
  cbn [out_stdout]. now apply printed_line_items.
Qed.

(** X1: the printed line read back by the array scanner gives the literal
    of every component, in order: one item per component, whatever the
    dimension of the row. *)
Theorem printed_line_reads_back
        (env : Env) (model : Model) (text : string)
        (embedding : ndarray) (rest : list ndarray) :
  SentenceTransformer env "all-MiniLM-L6-v2" = Ok model ->
  nth_error (sys_argv env) 1 = Some text ->
  encode model [text] = Ok (embedding :: rest) ->
  array_items (out_stdout (run float_repr env))
  = Some (map (literal float_repr) embedding) /\
  option_map (@length string) (array_items (out_stdout (run float_repr env)))
  = Some (length embedding).
Proof.
  intros L A E.
  rewrite (stdout_items env model text embedding rest L A E).
  split; [reflexivity|]. simpl. now rewrite length_map.
Qed.

(** X2: the printed line is valid JSON for an array of numbers exactly
    when every component of the row is finite; it then holds as many
    numbers as the row has components, each the [repr] of its component,
    and it parses to no other count. *)
Theorem printed_line_is_json_iff_finite
        (env : Env) (model : Model) (text : string)
        (embedding : ndarray) (rest : list ndarray) :
  SentenceTransformer env "all-MiniLM-L6-v2" = Ok model ->
  nth_error (sys_argv env) 1 = Some text ->
  encode model [text] = Ok (embedding :: rest) ->
  parses_to_numbers (length embedding) (out_stdout (run float_repr env))
  = forallb is_finite embedding /\
  (forall n,
      parses_to_numbers n (out_stdout (run float_repr env)) = true ->
      n = length embedding /\ forallb is_finite embedding = true) /\
  (forallb is_finite embedding = true ->
   json_number_array (out_stdout (run float_repr env))
   = Some (map float_repr embedding)).
Proof.
  intros L A E.
  rewrite (run_prints float_repr env model text embedding rest L A E).
  cbn [out_stdout]. unfold parses_to_numbers.
  rewrite (printed_line_json float_repr float_repr_number).
  destruct (forallb is_finite embedding) eqn:F.
  - rewrite length_map, Nat.eqb_refl.
    split; [reflexivity|]. split.
    + intros n H. apply Nat.eqb_eq in H. split; [now symmetry|reflexivity].
    + intros _. now rewrite literal_of_finite.
  - split; [reflexivity|]. split; [intros n H|intros H]; discriminate H.
Qed.

(** X3: two runs that reach the write and print the same line had rows of
    the same dimension, with the same literal at every position, and
    either both or neither had a non-finite component. *)
Theorem same_line_same_literals
        (env1 env2 : Env) (m1 m2 : Model) (t1 t2 : string)
        (v1 v2 : ndarray) (r1 r2 : list ndarray) :
  SentenceTransformer env1 "all-MiniLM-L6-v2" = Ok m1 ->
  nth_error (sys_argv env1) 1 = Some t1 ->
  encode m1 [t1] = Ok (v1 :: r1) ->
  SentenceTransformer env2 "all-MiniLM-L6-v2" = Ok m2 ->
  nth_error (sys_argv env2) 1 = Some t2 ->
  encode m2 [t2] = Ok (v2 :: r2) ->
  out_stdout (run float_repr env1) = out_stdout (run float_repr env2) ->
  map (literal float_repr) v1 = map (literal float_repr) v2 /\
  length v1 = length v2 /\
  forallb is_finite v1 = forallb is_finite v2.
Proof.
  intros L1 A1 E1 L2 A2 E2 S.
  pose proof (stdout_items env1 m1 t1 v1 r1 L1 A1 E1) as I1.
  pose proof (stdout_items env2 m2 t2 v2 r2 L2 A2 E2) as I2.
  rewrite S, I2 in I1. injection I1 as I.
  split; [now symmetry|]. split.
  - rewrite <- (length_map (literal float_repr) v1),
            <- (length_map (literal float_repr) v2). now rewrite I.
  - rewrite <- !(literals_number float_repr float_repr_number). now rewrite I.
Qed.

(** X4: the exit status is 0 or 1; it is 0 exactly when no exception ended
    the run, exactly when standard output is one single line, and exactly
    when the write stage was entered; it is 1 exactly when standard output
    is empty. *)
Theorem exit_status_tells_output (env : Env) :
  (out_status (run float_repr env) = 0%Z \/
   out_status (run float_repr env) = 1%Z) /\
  (out_status (run float_repr env) = 0%Z <->
   out_error (run float_repr env) = None) /\
  (out_status (run float_repr env) = 0%Z <->
   single_line (out_stdout (run float_repr env)) = true) /\
  (out_status (run float_repr env) = 0%Z <->
   existsb (Step_eqb StepWrite) (out_trace (run float_repr env)) = true) /\
  (out_status (run float_repr env) = 1%Z <->
   out_stdout (run float_repr env) = "").
Proof.
  rewrite run_cases.
  destruct (SentenceTransformer env model_name) as [model|e];
    [|status_of_failure].
  destruct (getitem (sys_argv env) 1) as [text|e]; [|status_of_failure].
  destruct (encode model [text]) as [rows|e]; [|status_of_failure].
  destruct (getitem rows 0) as [embedding|e]; [|status_of_failure].
  rewrite json_dumps_default.
  cbn [out_stdout out_status out_error out_trace].
  rewrite (single_line_render _
             (literals_item_ok float_repr float_repr_number (tolist embedding))).
  repeat split; auto; discriminate.
Qed.

(** X5: when [encode] returns no row, the subscript of its result raises
    [IndexError]: the run ends after the encode stage with status 1 and
    nothing printed. *)
Theorem empty_encode_result_raises
        (env : Env) (model : Model) (text : string) :
  SentenceTransformer env "all-MiniLM-L6-v2" = Ok model ->
  nth_error (sys_argv env) 1 = Some text ->
  encode model [text] = Ok [] ->
  out_error (run float_repr env) = Some IndexError /\
  out_status (run float_repr env) = 1%Z /\
  out_stdout (run float_repr env) = "" /\
  out_trace (run float_repr env) = [StepModelLoad; StepArgRead; StepEncode].
Proof.
  intros L A E. rewrite (run_no_row env model text L A E). repeat split.
Qed.

(** X6: only the first row of the encode result is used: two runs given
    the same text whose results start with the same row have the same
    outcome, whatever rows follow. *)
Theorem only_first_row_is_used
        (env1 env2 : Env) (m1 m2 : Model) (text : string)
        (embedding : ndarray) (r1 r2 : list ndarray) :
  SentenceTransformer env1 "all-MiniLM-L6-v2" = Ok m1 ->
  SentenceTransformer env2 "all-MiniLM-L6-v2" = Ok m2 ->
  nth_error (sys_argv env1) 1 = Some text ->
  nth_error (sys_argv env2) 1 = Some text ->
  encode m1 [text] = Ok (embedding :: r1) ->
  encode m2 [text] = Ok (embedding :: r2) ->
  run float_repr env1 = run float_repr env2.
Proof.
  intros L1 L2 A1 A2 E1 E2.
  rewrite (run_prints float_repr env1 m1 text embedding r1 L1 A1 E1).
  now rewrite (run_prints float_repr env2 m2 text embedding r2 L2 A2 E2).
Qed.

(** X7: a first row with no component is not rejected: the run prints the
    empty array, a line of valid JSON with no number, and exits with
    status 0. *)
Theorem empty_row_prints_empty_array
        (env : Env) (model : Model) (text : string) (rest : list ndarray) :
  SentenceTransformer env "all-MiniLM-L6-v2" = Ok model ->
  nth_error (sys_argv env) 1 = Some text ->
  encode model [text] = Ok ([] :: rest) ->
  out_stdout (run float_repr env) = "[]" ++ String newline "" /\
  out_status (run float_repr env) = 0%Z /\
  json_number_array (out_stdout (run float_repr env)) = Some [].
Proof.
  intros L A E. rewrite (run_prints float_repr env model text [] rest L A E).
  repeat split.
Qed.

(** X8: the model is asked to encode exactly when the model load returned
    and an argument is present at index 1; with a failed load or no
    argument, [encode] is never called. *)
Theorem encode_runs_iff_loaded_and_argument (env : Env) :
  existsb (Step_eqb StepEncode) (out_trace (run float_repr env)) = true <->
  exists model text,
    SentenceTransformer env "all-MiniLM-L6-v2" = Ok model /\
    nth_error (sys_argv env) 1 = Some text.
Proof.
  rewrite run_cases. unfold getitem, model_name.
  destruct (SentenceTransformer env "all-MiniLM-L6-v2") as [model|e].
  - destruct (nth_error (sys_argv env) 1) as [text|].
    + split; [intros _; eauto|intros _].
      destruct (encode model [text]) as [[|row rows]|e]; try reflexivity.
      cbn [nth_error]. now rewrite json_dumps_default.
    + split; [discriminate|]. intros (m & t & _ & H). discriminate H.
  - split; [discriminate|]. intros (m & t & H & _). discriminate H.
Qed.

End ScriptMore.


(** ** The further properties at sample environments *)

Example mixed_line :
  out_stdout (run exact_repr env_mixed)
  = "[5e-1, -Infinity, -0.0]" ++ String newline "".
Proof. reflexivity. Qed.

Lemma printed_line_reads_back_witness :
  array_items (out_stdout (run exact_repr env_mixed))
  = Some ["5e-1"; "-Infinity"; "-0.0"] /\
  option_map (@length string) (array_items (out_stdout (run exact_repr env_mixed)))
  = Some 3.
Proof.
  apply (printed_line_reads_back exact_repr exact_repr_number env_mixed
           mixed_model "hello world"
           [S754_finite false 1 (-1); S754_infinity true; S754_zero true] []);
    reflexivity.
Defined.

Lemma printed_line_is_json_iff_finite_witness :
  parses_to_numbers 384 (out_stdout (run exact_repr env_hello)) = true /\
  (forall n,
      parses_to_numbers n (out_stdout (run exact_repr env_hello)) = true ->
      n = 384 /\ forallb is_finite (toy_row "hello world") = true) /\
  (forallb is_finite (toy_row "hello world") = true ->
   json_number_array (out_stdout (run exact_repr env_hello))
   = Some (map exact_repr (toy_row "hello world"))).
Proof.
  apply (printed_line_is_json_iff_finite exact_repr exact_repr_number env_hello
           toy_model "hello world" (toy_row "hello world") []);
    reflexivity.
Defined.

Lemma same_line_same_literals_witness :
  map (literal exact_repr) (toy_row "hello world")
  = map (literal exact_repr) (toy_row "hello world") /\
  length (toy_row "hello world") = length (toy_row "hello world") /\
  forallb is_finite (toy_row "hello world")
  = forallb is_finite (toy_row "hello world").
Proof.
  apply (same_line_same_literals exact_repr exact_repr_number
           env_hello env_two_rows toy_model two_row_model
           "hello world" "hello world"
           (toy_row "hello world") (toy_row "hello world")
           [] [repeat S754_nan 3]);
    reflexivity.
Defined.

Lemma exit_status_tells_output_witness :
  out_status (run exact_repr env_hello) = 0%Z /\
  single_line (out_stdout (run exact_repr env_hello)) = true /\
  out_status (run exact_repr env_no_arg) = 1%Z /\
  out_stdout (run exact_repr env_no_arg) = "".
Proof.
  assert (S0 : out_status (run exact_repr env_hello) = 0%Z)
    by (vm_compute; reflexivity).
  assert (S1 : out_status (run exact_repr env_no_arg) = 1%Z)
    by (vm_compute; reflexivity).
  pose proof (exit_status_tells_output exact_repr exact_repr_number env_hello)
    as (_ & _ & L & _ & _).
  pose proof (exit_status_tells_output exact_repr exact_repr_number env_no_arg)
    as (_ & _ & _ & _ & E).
  split; [exact S0|].
  split; [exact (proj1 L S0)|].
  split; [exact S1 | exact (proj1 E S1)].
Defined.

Lemma empty_encode_result_raises_witness :
  out_error (run exact_repr env_empty_result) = Some IndexError /\
  out_status (run exact_repr env_empty_result) = 1%Z /\
  out_stdout (run exact_repr env_empty_result) = "" /\
  out_trace (run exact_repr env_empty_result)
  = [StepModelLoad; StepArgRead; StepEncode].
Proof.
  apply (empty_encode_result_raises exact_repr env_empty_result
           empty_result_model "hello world"); reflexivity.
Defined.

Lemma only_first_row_is_used_witness :
  run exact_repr env_hello = run exact_repr env_two_rows.
Proof.
  apply (only_first_row_is_used exact_repr env_hello env_two_rows
           toy_model two_row_model "hello world" (toy_row "hello world")
           [] [repeat S754_nan 3]); reflexivity.
Defined.

Lemma empty_row_prints_empty_array_witness :
  out_stdout (run exact_repr env_empty_row) = "[]" ++ String newline "" /\
  out_status (run exact_repr env_empty_row) = 0%Z /\
  json_number_array (out_stdout (run exact_repr env_empty_row)) = Some [].
Proof.
  apply (empty_row_prints_empty_array exact_repr env_empty_row
           empty_row_model "hello world" []); reflexivity.
Defined.

Lemma encode_runs_iff_loaded_and_argument_witness :
  existsb (Step_eqb StepEncode) (out_trace (run exact_repr env_encode_fails))
  = true.
Proof.
  apply (proj2 (encode_runs_iff_loaded_and_argument exact_repr env_encode_fails)).
  exists failing_model, "hello world". split; reflexivity.
Defined.
